(** * mutwo: leaf events, the ISiS score frontend and the sone/phon formula

    A shallow embedding of

    - [mutwo/events/basic/SimpleEvent.py]  (class [SimpleEvent]),
    - [mutwo/converters/frontends/isis.py] (classes [IsisScoreConverter]
      and [IsisConverter]),

    together with the part of the loudness converter that the test suite
    [tests/converters/symmetrical/loudness_tests.py] pins down.

    Python objects are modelled by their instance dictionaries, exceptions
    by an explicit error type, the file system by a finite map that is
    threaded through the converters. *)

From Stdlib Require Import ZArith String Ascii List Reals Lra Lia.
From stdpp Require Import base option list gmap strings pretty.

Local Open Scope string_scope.
Local Open Scope list_scope.
Local Open Scope Z_scope.

(** ** Python values, exceptions and results *)

(** The exception classes that the modelled code raises or lets through. *)
Inductive PyException : Type :=
| AttributeError
| IndexError
| TypeError
| ZeroDivisionError
| FileNotFoundError
| NotImplementedError (message : string).

(** A computation either returns a value or raises. *)
Inductive result (A : Type) : Type :=
| Ok (a : A)
| Raise (e : PyException).

Arguments Ok {A} a.
Arguments Raise {A} e.

#[export] Instance result_ret : MRet result := fun A a => Ok a.

#[export] Instance result_bind : MBind result := fun A B k r =>
  match r with
  | Ok a => k a
  | Raise e => Raise e
  end.

(** Dynamically typed values.  Instances of the parameter classes, which
    live outside the modelled files, are kept as the constructor call that
    made them. *)
#[warnings="-register-all"]
Inductive Value : Type :=
| VNone
| VBool (b : bool)
| VInt (z : Z)
| VStr (s : string)
| VTuple (items : list Value)
| VList (items : list Value)
| VObject (class_name : string) (arguments : list Value)
| VMethod (name : string).

(** [parameters.pitches.WesternPitch(name, octave)] *)
Definition WesternPitch (name : string) (octave : Z) : Value :=
  VObject "WesternPitch" [VStr name; VInt octave].

(** [parameters.volumes.DirectVolume(amplitude)] *)
Definition DirectVolume (amplitude : Z) : Value :=
  VObject "DirectVolume" [VInt amplitude].

(** [container[index]] for a literal, non-negative index. *)
Definition py_getitem (container : Value) (index : nat) : result Value :=
  match container with
  | VTuple items | VList items =>
      match items !! index with
      | Some v => Ok v
      | None => Raise IndexError
      end
  | VStr s =>
      match String.get index s with
      | Some c => Ok (VStr (String c EmptyString))
      | None => Raise IndexError
      end
  | _ => Raise TypeError
  end.

(** [a % b] on integers.  [Z.modulo] takes the sign of the divisor, as
    Python does; division by zero raises. *)
Definition py_mod (a b : Z) : result Z :=
  if b =? 0 then Raise ZeroDivisionError else Ok (a mod b).

(** ** [SimpleEvent] *)

(** An instance is its [__dict__]. *)
Record SimpleEvent : Type := mkSimpleEvent {
  instance_dict : gmap string Value
}.

(** Files as a map from paths to contents. *)
Abbreviation FileSystem := (gmap string string).

Section Mutwo.

(** Attributes that [SimpleEvent] inherits from [abc.Event] and [object];
    neither class is part of the modelled files. *)
Variable inherited_attribute : string → option Value.

(** What the class body of [SimpleEvent] itself defines besides the
    [duration] property. *)
Definition SimpleEvent_methods : list string := ["__init__"; "get_parameter"].

Definition class_attribute (name : string) : option Value :=
  if decide (name ∈ SimpleEvent_methods) then Some (VMethod name)
  else inherited_attribute name.

(** Ordinary attribute resolution: the instance dictionary, then the
    class. *)
Definition lookup_plain (self : SimpleEvent) (name : string) : option Value :=
  match instance_dict self !! name with
  | Some v => Some v
  | None => class_attribute name
  end.

(** Attribute resolution.  [duration] is a property (a data descriptor), so
    it wins over the instance dictionary; its getter is
    [return self._duration]. *)
Definition lookup_attribute (self : SimpleEvent) (name : string) : option Value :=
  if decide (name = "duration") then lookup_plain self "_duration"
  else lookup_plain self name.

(** [getattr(self, name)] *)
Definition SimpleEvent_getattr (self : SimpleEvent) (name : string) : result Value :=
  match lookup_attribute self name with
  | Some v => Ok v
  | None => Raise AttributeError
  end.

(** [setattr(self, name, value)]; the property setter is
    [self._duration = new_duration]. *)
Definition SimpleEvent_setattr (self : SimpleEvent) (name : string) (value : Value)
  : SimpleEvent :=
  if decide (name = "duration")
  then mkSimpleEvent (<["_duration" := value]> (instance_dict self))
  else mkSimpleEvent (<[name := value]> (instance_dict self)).

(** [SimpleEvent(new_duration)]: [__init__] runs [self.duration = new_duration]
    on the fresh instance. *)
Definition SimpleEvent_init (new_duration : Value) : SimpleEvent :=
  SimpleEvent_setattr (mkSimpleEvent ∅) "duration" new_duration.

(** [self.duration] *)
Definition duration (self : SimpleEvent) : result Value :=
  SimpleEvent_getattr self "duration".

(** [SimpleEvent.get_parameter] *)
Definition get_parameter (self : SimpleEvent) (parameter_name : string) : result Value :=
  match SimpleEvent_getattr self parameter_name with
  | Ok v => Ok (VTuple [v])
  | Raise AttributeError => Ok (VTuple [VNone])
  | Raise e => Raise e
  end.

(** Events that a program can build: construction followed by attribute
    assignments (none of the modelled code deletes an attribute). *)
Inductive constructed : SimpleEvent → Prop :=
| constructed_init (d : Value) : constructed (SimpleEvent_init d)
| constructed_setattr (e : SimpleEvent) (name : string) (v : Value) :
    constructed e → constructed (SimpleEvent_setattr e name v).

(** ** Strings *)

(** The line feed that Python writes as a backslash followed by [n]. *)
Definition newline : string := String (ascii_of_nat 10) EmptyString.

(** [s * n] *)
Fixpoint string_repeat (s : string) (n : nat) : string :=
  match n with
  | O => EmptyString
  | S k => s +:+ string_repeat s k
  end.

(** The items of an iterable handed to [str.join] must all be strings. *)
Fixpoint as_strings (items : list Value) : result (list string) :=
  match items with
  | [] => Ok []
  | VStr s :: rest => tail ← as_strings rest; Ok (s :: tail)
  | _ :: _ => Raise TypeError
  end.

(** [separator.join(items)] *)
Definition str_join (separator : string) (items : list Value) : result string :=
  strings ← as_strings items; Ok (String.concat separator strings).

(** [[f(x) for x in xs]], stopping at the first exception. *)
Fixpoint comprehension {A B : Type} (f : A → result B) (xs : list A) : result (list B) :=
  match xs with
  | [] => Ok []
  | x :: rest => y ← f x; ys ← comprehension f rest; Ok (y :: ys)
  end.

(** ** [IsisScoreConverter] *)

(** [str(value)], and the two projections of the parameter classes that the
    score needs; all three belong to classes outside the modelled files. *)
Variable py_str : Value → string.
Variable midi_pitch_number : Value → result Value.
Variable amplitude : Value → result Value.

Record IsisScoreConverter : Type := mkIsisScoreConverter {
  path : string;
  _tempo : Value;
  _global_transposition : Value;
  _default_sentence_loudness : Value;
  _n_events_per_line : Z;
  _extraction_functions : list (SimpleEvent → result Value)
}.

(** The default accessors of [IsisScoreConverter.__init__]. *)
Definition default_simple_event_to_pitch (simple_event : SimpleEvent) : result Value :=
  pitches ← SimpleEvent_getattr simple_event "pitch_or_pitches"; py_getitem pitches 0.

Definition default_simple_event_to_volume (simple_event : SimpleEvent) : result Value :=
  SimpleEvent_getattr simple_event "volume".

Definition default_simple_event_to_vowel (simple_event : SimpleEvent) : result Value :=
  SimpleEvent_getattr simple_event "vowel".

Definition default_simple_event_to_consonants (simple_event : SimpleEvent) : result Value :=
  SimpleEvent_getattr simple_event "consonants".

(** [IsisScoreConverter.__init__]; note the order in which the accessors
    are stored. *)
Definition IsisScoreConverter_init (path : string)
    (simple_event_to_pitch simple_event_to_volume
     simple_event_to_vowel simple_event_to_consonants : SimpleEvent → result Value)
    (tempo global_transposition default_sentence_loudness : Value)
    (n_events_per_line : Z) : IsisScoreConverter :=
  {| path := path;
     _tempo := tempo;
     _global_transposition := global_transposition;
     _default_sentence_loudness := default_sentence_loudness;
     _n_events_per_line := n_events_per_line;
     _extraction_functions :=
       [simple_event_to_consonants; simple_event_to_vowel;
        simple_event_to_pitch; simple_event_to_volume] |}.

(** [IsisScoreConverter(path)] with every keyword argument left at its
    default. *)
Definition IsisScoreConverter_default (path : string) : IsisScoreConverter :=
  IsisScoreConverter_init path
    default_simple_event_to_pitch default_simple_event_to_volume
    default_simple_event_to_vowel default_simple_event_to_consonants
    (VInt 60) (VInt 0) VNone 5.

(** [objects_per_line[-1].extend(items)] *)
Fixpoint extend_last (objects_per_line : list (list Value)) (items : list Value)
  : result (list (list Value)) :=
  match objects_per_line with
  | [] => Raise IndexError
  | [line] => Ok [line ++ items]
  | line :: rest => tail ← extend_last rest items; Ok (line :: tail)
  end.

(** The [for nth_event, extracted_data in enumerate(...)] loop of
    [_make_key_from_extracted_data_per_event], started at index
    [nth_event] with the lines collected so far. *)
Fixpoint group_loop (n_events_per_line : Z) (key : Value → result (list Value))
    (nth_event : Z) (extracted_data_per_event : list Value)
    (objects_per_line : list (list Value)) : result (list (list Value)) :=
  match extracted_data_per_event with
  | [] => Ok objects_per_line
  | extracted_data :: rest =>
      items ← key extracted_data;
      extended ← extend_last objects_per_line items;
      remainder ← py_mod nth_event n_events_per_line;
      group_loop n_events_per_line key (nth_event + 1) rest
        (if remainder =? 0 then extended ++ [[]] else extended)
  end.

(** [bool(line)] for a list. *)
Definition nonempty (line : list Value) : bool :=
  match line with
  | [] => false
  | _ :: _ => true
  end.

(** The line groups that reach the output: the loop's lines after the
    [if line] filter of the comprehension. *)
Definition wrapped_groups (self : IsisScoreConverter)
    (extracted_data_per_event : list Value) (key : Value → result (list Value))
  : result (list (list Value)) :=
  objects_per_line ←
    group_loop (_n_events_per_line self) key 0 extracted_data_per_event [[]];
  Ok (List.filter nonempty objects_per_line).

(** A key that yields exactly one item for every event of the list. *)
Definition one_item_per_event (key : Value → result (list Value))
    (extracted_data_per_event : list Value) : Prop :=
  Forall (λ d, ∃ item, key d = Ok [item]) extracted_data_per_event.

(** [IsisScoreConverter._make_key_from_extracted_data_per_event] *)
Definition _make_key_from_extracted_data_per_event (self : IsisScoreConverter)
    (key_name : string) (extracted_data_per_event : list Value)
    (key : Value → result (list Value)) : result string :=
  groups ← wrapped_groups self extracted_data_per_event key;
  let join_string :=
    "," +:+ newline +:+ string_repeat " " (String.length key_name + 2)%nat in
  lines ← comprehension (str_join ", ") groups;
  Ok (key_name +:+ ": " +:+ String.concat join_string lines).

(** The [key] lambdas handed to [_make_key_from_extracted_data_per_event]. *)

(** [lambda extracted_data: extracted_data[1] + (extracted_data[2],)] *)
Definition xsampa_key (extracted_data : Value) : result (list Value) :=
  consonants ← py_getitem extracted_data 1;
  vowel ← py_getitem extracted_data 2;
  match consonants with
  | VTuple items => Ok (items ++ [vowel])
  | _ => Raise TypeError
  end.

(** [lambda extracted_data: (str(extracted_data[3].midi_pitch_number),)] *)
Definition midi_notes_key (extracted_data : Value) : result (list Value) :=
  pitch ← py_getitem extracted_data 3;
  number ← midi_pitch_number pitch;
  Ok [VStr (py_str number)].

(** [lambda extracted_data: (str(extracted_data[0]),)] *)
Definition rhythm_key (extracted_data : Value) : result (list Value) :=
  duration ← py_getitem extracted_data 0;
  Ok [VStr (py_str duration)].

(** [lambda extracted_data: (str(extracted_data[4].amplitude),)] *)
Definition loud_accents_key (extracted_data : Value) : result (list Value) :=
  volume ← py_getitem extracted_data 4;
  amp ← amplitude volume;
  Ok [VStr (py_str amp)].

(** [IsisScoreConverter._make_lyrics_section_from_extracted_data_per_event] *)
Definition _make_lyrics_section_from_extracted_data_per_event
    (self : IsisScoreConverter) (extracted_data_per_event : list Value)
  : result string :=
  xsampa ← _make_key_from_extracted_data_per_event self "xsampa"
             extracted_data_per_event xsampa_key;
  Ok ("[lyrics]" +:+ newline +:+ xsampa).

(** [IsisScoreConverter._make_score_section_from_extracted_data_per_event] *)
Definition _make_score_section_from_extracted_data_per_event
    (self : IsisScoreConverter) (extracted_data_per_event : list Value)
  : result string :=
  midi_notes ← _make_key_from_extracted_data_per_event self "midiNotes"
                 extracted_data_per_event midi_notes_key;
  rhythm ← _make_key_from_extracted_data_per_event self "rhythm"
             extracted_data_per_event rhythm_key;
  loud_accents ← _make_key_from_extracted_data_per_event self "loud_accents"
                   extracted_data_per_event loud_accents_key;
  Ok ("[score]" +:+ newline +:+ midi_notes +:+ newline
      +:+ "globalTransposition: " +:+ py_str (_global_transposition self)
      +:+ newline +:+ rhythm +:+ newline +:+ loud_accents +:+ newline
      +:+ "tempo: " +:+ py_str (_tempo self)).

(** An accessor that returns. *)
Definition succeeds_on (e : SimpleEvent) (f : SimpleEvent → result Value) : Prop :=
  ∃ v, f e = Ok v.

(** The record that replaces the data of an event lacking an attribute. *)
Definition default_record (duration : Value) : Value :=
  VTuple [duration; VTuple []; VStr "_"; WesternPitch "c" (-1); DirectVolume 0].

(** The [for extraction_function in self._extraction_functions] loop of
    [_convert_simple_event]; [extracted_data] is the list built so far. *)
Fixpoint extraction_loop (extraction_functions : list (SimpleEvent → result Value))
    (simple_event_to_convert : SimpleEvent) (duration : Value)
    (extracted_data : list Value) : result (list Value) :=
  match extraction_functions with
  | [] => Ok [VTuple extracted_data]
  | extraction_function :: rest =>
      match extraction_function simple_event_to_convert with
      | Ok extracted_information =>
          extraction_loop rest simple_event_to_convert duration
            (extracted_data ++ [extracted_information])
      | Raise AttributeError => Ok [default_record duration]
      | Raise e => Raise e
      end
  end.

(** [IsisScoreConverter._convert_simple_event]; the result lists the items
    of the returned 1-tuple. *)
Definition _convert_simple_event (self : IsisScoreConverter)
    (simple_event_to_convert : SimpleEvent) (absolute_entry_delay : Value)
  : result (list Value) :=
  duration ← duration simple_event_to_convert;
  extraction_loop (_extraction_functions self) simple_event_to_convert
    duration [duration].

(** Events: leaves and the two containers of [mutwo.events.basic]. *)
#[warnings="-register-all"]
Inductive Event : Type :=
| Simple (simple_event : SimpleEvent)
| SequentialEvent (events : list Event)
| SimultaneousEvent (events : list Event).

Definition simultaneous_message : string :=
  "Can't convert instance of SimultaneousEvent to ISiS Score. ISiS is only a"
  +:+ " monophonic synthesizer and can't read multiple simultaneous voices!".

(** [IsisScoreConverter._convert_simultaneous_event] *)
Definition _convert_simultaneous_event (self : IsisScoreConverter)
    (simultaneous_event_to_convert : list Event) (absolute_entry_delay : Value)
  : result (list Value) :=
  Raise (NotImplementedError simultaneous_message).

(** The absolute start of the event that follows [event] in a sequence,
    when [event] itself starts at the given offset; computed by the
    container classes, which are outside the modelled files. *)
Variable start_after : Value → Event → Value.

(** Modelled from the spec: [_convert_event] and [_convert_sequential_event]
    are inherited from [converters.abc.EventConverter], which is not among
    the modelled files.  Following sections 2, 4.2 and 6 of the
    specification, a leaf goes to [_convert_simple_event], a sequence is
    walked in time order with the absolute start of each child, and a
    simultaneous container is handed as a whole to
    [_convert_simultaneous_event]. *)
Fixpoint _convert_event (self : IsisScoreConverter) (event_to_convert : Event)
    (absolute_entry_delay : Value) {struct event_to_convert} : result (list Value) :=
  match event_to_convert with
  | Simple simple_event =>
      _convert_simple_event self simple_event absolute_entry_delay
  | SimultaneousEvent events =>
      _convert_simultaneous_event self events absolute_entry_delay
  | SequentialEvent events =>
      (fix children (events : list Event) (start : Value) : result (list Value) :=
         match events with
         | [] => Ok []
         | child :: rest =>
             data ← _convert_event self child start;
             more ← children rest (start_after start child);
             Ok (data ++ more)
         end) events absolute_entry_delay
  end.

(** ** The file system and the external renderer *)

(** [with open(path, "w") as f: f.write(content)] *)
Definition write_file (path content : string) (fs : FileSystem) : FileSystem :=
  <[path := content]> fs.

(** [os.remove(path)] *)
Definition os_remove (path : string) (fs : FileSystem) : result unit * FileSystem :=
  match fs !! path with
  | Some _ => (Ok (), delete path fs)
  | None => (Raise FileNotFoundError, fs)
  end.

(** What running a shell command does to the files; the exit status is
    dropped by the caller. *)
Variable os_system : string → FileSystem → FileSystem.

(** [IsisScoreConverter.convert] *)
Definition IsisScoreConverter_convert (self : IsisScoreConverter)
    (event_to_convert : Event) (fs : FileSystem) : result unit * FileSystem :=
  match
    extracted_data_per_event ← _convert_event self event_to_convert (VInt 0);
    lyrics_section ←
      _make_lyrics_section_from_extracted_data_per_event self extracted_data_per_event;
    score_section ←
      _make_score_section_from_extracted_data_per_event self extracted_data_per_event;
    Ok (String.concat (newline +:+ newline) [lyrics_section; score_section])
  with
  | Ok content => (Ok (), write_file (path self) content fs)
  | Raise e => (Raise e, fs)
  end.

(** ** [IsisConverter] *)

Record IsisConverter : Type := mkIsisConverter {
  flags : list string;
  sound_path : string;
  isis_score_converter : IsisScoreConverter;
  remove_score_file : bool
}.

(** [IsisConverter.__init__] *)
Definition IsisConverter_init (path : string)
    (isis_score_converter : IsisScoreConverter) (flag : list string)
    (remove_score_file : bool) : IsisConverter :=
  {| flags := flag;
     sound_path := path;
     isis_score_converter := isis_score_converter;
     remove_score_file := remove_score_file |}.

(** The values an attribute of an [IsisConverter] can hold. *)
Inductive IsisConverterAttribute : Type :=
| AttrFlags (flag : list string)
| AttrPath (path : string)
| AttrScoreConverter (converter : IsisScoreConverter)
| AttrBool (b : bool)
| AttrMethod (name : string).

(** [getattr(self, name)] on an [IsisConverter]: the four attributes that
    [__init__] assigns, then the two methods of the class. *)
Definition IsisConverter_getattr (self : IsisConverter) (name : string)
  : result IsisConverterAttribute :=
  if decide (name = "flags") then Ok (AttrFlags (flags self))
  else if decide (name = "path") then Ok (AttrPath (sound_path self))
  else if decide (name = "isis_score_converter")
       then Ok (AttrScoreConverter (isis_score_converter self))
  else if decide (name = "remove_score_file")
       then Ok (AttrBool (remove_score_file self))
  else if decide (name ∈ ["__init__"; "convert"]) then Ok (AttrMethod name)
  else Raise AttributeError.

(** [attribute.path] *)
Definition attribute_path (attribute : IsisConverterAttribute) : result string :=
  match attribute with
  | AttrScoreConverter converter => Ok (path converter)
  | _ => Raise AttributeError
  end.

(** The command line that [IsisConverter.convert] assembles. *)
Definition isis_command (self : IsisConverter) : string :=
  fold_left (fun command flag => command +:+ " " +:+ flag +:+ " ") (flags self)
    ("isis.sh -m " +:+ path (isis_score_converter self) +:+ " -o " +:+ sound_path self).

(** [IsisConverter.convert] *)
Definition IsisConverter_convert (self : IsisConverter) (event_to_convert : Event)
    (fs : FileSystem) : result unit * FileSystem :=
  match IsisScoreConverter_convert (isis_score_converter self) event_to_convert fs with
  | (Raise e, fs1) => (Raise e, fs1)
  | (Ok _, fs1) =>
      let fs2 := os_system (isis_command self) fs1 in
      if remove_score_file self then
        match
          converter ← IsisConverter_getattr self "csound_score_converter";
          attribute_path converter
        with
        | Ok score_file => os_remove score_file fs2
        | Raise e => (Raise e, fs2)
        end
      else (Ok (), fs2)
  end.

(** ** The sone to phon formula *)

(** Modelled from the spec: [LoudnessToAmplitudeConverter._sone_to_phon] is
    exercised by the test suite but defined outside the modelled files.
    Section 4.1 of the specification gives its two branches, which are
    written here over the real numbers. *)
Definition sone_to_phon_high (loudness_in_sone : R) : R :=
  (40 + 10 * (ln loudness_in_sone / ln 2))%R.

Definition sone_to_phon_low (loudness_in_sone : R) : R :=
  (40 * Rpower (loudness_in_sone + 0.0005) 0.35)%R.

Definition sone_to_phon (loudness_in_sone : R) : R :=
  if Rle_dec 1 loudness_in_sone
  then sone_to_phon_high loudness_in_sone
  else sone_to_phon_low loudness_in_sone.

(** [assertAlmostEqual(first, second)] of the test suite: the difference
    rounded to seven decimal places is zero. *)
Definition almost_equal (first second : R) : Prop :=
  (Rabs (first - second) < 5 / 10 ^ 8)%R.

(** The number of lines that [n_items] items fill when every line holds
    [per_line] of them. *)
Definition ceil_div (n_items per_line : Z) : Z := - ((- n_items) / per_line).

(** ** Sample collaborators and events *)

(** A class hierarchy that adds no attributes. *)
Definition no_inherited : string → option Value := fun _ => None.

(** [str] on strings and integers. *)
Definition sample_str (v : Value) : string :=
  match v with
  | VStr s => s
  | VInt z => pretty z
  | _ => EmptyString
  end.

(** The MIDI number of a [WesternPitch] on the pitch class c. *)
Definition sample_midi_pitch_number (v : Value) : result Value :=
  match v with
  | VObject class_name [VStr name; VInt octave] =>
      if decide (class_name = "WesternPitch" ∧ name = "c")
      then Ok (VInt (12 * (octave + 1)))
      else Raise AttributeError
  | _ => Raise AttributeError
  end.

(** The amplitude of a [DirectVolume]. *)
Definition sample_amplitude (v : Value) : result Value :=
  match v with
  | VObject class_name [a] =>
      if decide (class_name = "DirectVolume") then Ok a else Raise AttributeError
  | _ => Raise AttributeError
  end.

(** The ISiS converter never looks at the offsets; the sample keeps them at
    the start. *)
Definition sample_start_after (start : Value) (event : Event) : Value := start.

(** A renderer that is not installed: the shell fails, no file changes. *)
Definition sample_os_system (command : string) (fs : FileSystem) : FileSystem := fs.

(** A note with lyrics: every attribute the default accessors read. *)
Definition sung_note (d : Z) : SimpleEvent :=
  SimpleEvent_setattr
    (SimpleEvent_setattr
       (SimpleEvent_setattr
          (SimpleEvent_setattr (SimpleEvent_init (VInt d))
             "pitch_or_pitches" (VList [WesternPitch "c" 4]))
          "volume" (DirectVolume 1))
       "vowel" (VStr "a"))
    "consonants" (VTuple [VStr "t"]).

(** A note on which nobody set a vowel. *)
Definition note_without_vowel : SimpleEvent :=
  SimpleEvent_setattr
    (SimpleEvent_setattr
       (SimpleEvent_setattr (SimpleEvent_init (VInt 1))
          "pitch_or_pitches" (VList [WesternPitch "c" 4]))
       "volume" (DirectVolume 1))
    "consonants" (VTuple []).

(** A rest with lyrics but no volume: its list of pitches is empty, as for
    [NoteLike(None, 1, 1)] in [tests/events/music_tests.py]. *)
Definition rest_without_volume : SimpleEvent :=
  SimpleEvent_setattr
    (SimpleEvent_setattr
       (SimpleEvent_setattr (SimpleEvent_init (VInt 1))
          "pitch_or_pitches" (VList []))
       "vowel" (VStr "a"))
    "consonants" (VTuple []).

(** ** Notions used to state the properties *)

(** The key of the instance dictionary that an attribute name is stored
    under: the [duration] property keeps its value in [_duration]. *)
Definition storage_key (name : string) : string :=
  if decide (name = "duration") then "_duration" else name.


(** A note whose consonants are a list, as in the example of the docstring
    of [IsisScoreConverter.convert]. *)
Definition note_with_list_consonants : SimpleEvent :=
  SimpleEvent_setattr
    (SimpleEvent_setattr
       (SimpleEvent_setattr
          (SimpleEvent_setattr (SimpleEvent_init (VInt 1))
             "pitch_or_pitches" (VList [WesternPitch "c" 4]))
          "volume" (DirectVolume 1))
       "vowel" (VStr "e"))
    "consonants" (VList [VStr "t"]).

(** The extracted tuple of [sung_note d]. *)
Definition sung_tuple (d : Z) : Value :=
  VTuple [VInt d; VTuple [VStr "t"]; VStr "a"; WesternPitch "c" 4; DirectVolume 1].

(** [IsisScoreConverter("score", n_events_per_line=n)] *)
Definition converter_wrapping_at (n : Z) : IsisScoreConverter :=
  IsisScoreConverter_init "score"
    default_simple_event_to_pitch default_simple_event_to_volume
    default_simple_event_to_vowel default_simple_event_to_consonants
    (VInt 60) (VInt 0) VNone n.

(** * Properties *)

(** ** [SimpleEvent]: attribute access *)

Lemma getattr_duration_reads_private (self : SimpleEvent) :
  SimpleEvent_getattr self "duration" = SimpleEvent_getattr self "_duration".
Proof. reflexivity. Qed.

Lemma getattr_in_dict (self : SimpleEvent) (name : string) (v : Value) :
  name ≠ "duration" →
  instance_dict self !! name = Some v →
  SimpleEvent_getattr self name = Ok v.
Proof.
  intros Hname Hlookup.
  unfold SimpleEvent_getattr, lookup_attribute, lookup_plain.
  destruct (decide (name = "duration")) as [Heq | _]; [contradiction |].
  by rewrite Hlookup.
Qed.

Lemma setattr_duration_dict (self : SimpleEvent) (d : Value) :
  instance_dict (SimpleEvent_setattr self "duration" d) !! "_duration" = Some d.
Proof. unfold SimpleEvent_setattr. simpl. apply lookup_insert_eq. Qed.

Lemma duration_of_dict (self : SimpleEvent) (d : Value) :
  instance_dict self !! "_duration" = Some d → duration self = Ok d.
Proof.
  intros Hd. unfold duration. rewrite getattr_duration_reads_private.
  by apply getattr_in_dict.
Qed.

Lemma duration_after_setter (self : SimpleEvent) (d : Value) :
  duration (SimpleEvent_setattr self "duration" d) = Ok d.
Proof. apply duration_of_dict, setattr_duration_dict. Qed.

(** Assigning any other attribute leaves the duration alone. *)
Lemma setattr_keeps_private_duration (self : SimpleEvent) (name : string) (v : Value) :
  name ≠ "duration" → name ≠ "_duration" →
  instance_dict (SimpleEvent_setattr self name v) !! "_duration"
  = instance_dict self !! "_duration".
Proof.
  intros Hname Hprivate. unfold SimpleEvent_setattr.
  destruct (decide (name = "duration")) as [Heq | _]; [contradiction |].
  simpl. by apply lookup_insert_ne.
Qed.

(** Every event that a program builds has its [_duration] set, so reading
    [duration] succeeds. *)
Lemma constructed_has_duration (e : SimpleEvent) :
  constructed e → ∃ d, duration e = Ok d.
Proof.
  intros Hc.
  enough (is_Some (instance_dict e !! "_duration")) as [d Hd]
    by (exists d; by apply duration_of_dict).
  induction Hc as [d | e name v _ IH].
  - exists d. apply setattr_duration_dict.
  - destruct (decide (name = "duration")) as [-> | Hname].
    + exists v. apply setattr_duration_dict.
    + destruct (decide (name = "_duration")) as [-> | Hprivate].
      * exists v. unfold SimpleEvent_setattr. simpl. apply lookup_insert_eq.
      * by rewrite setattr_keeps_private_duration.
Qed.

(** [get_parameter] when the attribute is found, and when it is not. *)
Lemma get_parameter_present (self : SimpleEvent) (name : string) (v : Value) :
  lookup_attribute self name = Some v →
  get_parameter self name = Ok (VTuple [v]).
Proof. intros H. unfold get_parameter, SimpleEvent_getattr. by rewrite H. Qed.

Lemma get_parameter_absent (self : SimpleEvent) (name : string) :
  lookup_attribute self name = None →
  get_parameter self name = Ok (VTuple [VNone]).
Proof. intros H. unfold get_parameter, SimpleEvent_getattr. by rewrite H. Qed.

(** C8.  For every event and every parameter name, [get_parameter] returns
    a 1-tuple: it holds the attribute's value when attribute resolution
    finds the name, and [None] when it does not.  No name makes it raise. *)
Theorem get_parameter_one_tuple (self : SimpleEvent) (parameter_name : string) :
  get_parameter self parameter_name
  = Ok (VTuple [match lookup_attribute self parameter_name with
                | Some value => value
                | None => VNone
                end])
  ∧ SimpleEvent_getattr self parameter_name
    = match lookup_attribute self parameter_name with
      | Some value => Ok value
      | None => Raise AttributeError
      end.
Proof.
  split; [| reflexivity].
  destruct (lookup_attribute self parameter_name) as [v |] eqn:Hlookup.
  - by apply get_parameter_present.
  - by apply get_parameter_absent.
Qed.

(** C10.  After [SimpleEvent(d)], and after [event.duration = d] on any
    event, reading [duration] gives back [d] and [get_parameter("duration")]
    gives the 1-tuple [(d,)]. *)
Theorem duration_setter_getter_roundtrip (self : SimpleEvent) (d : Value) :
  duration (SimpleEvent_init d) = Ok d
  ∧ get_parameter (SimpleEvent_init d) "duration" = Ok (VTuple [d])
  ∧ duration (SimpleEvent_setattr self "duration" d) = Ok d
  ∧ get_parameter (SimpleEvent_setattr self "duration" d) "duration"
    = Ok (VTuple [d]).
Proof.
  assert (∀ e, get_parameter (SimpleEvent_setattr e "duration" d) "duration"
               = Ok (VTuple [d])) as Hget.
  { intros e. unfold get_parameter.
    change (SimpleEvent_getattr (SimpleEvent_setattr e "duration" d) "duration")
      with (duration (SimpleEvent_setattr e "duration" d)).
    by rewrite duration_after_setter. }
  split; [| split; [| split]].
  - apply duration_after_setter.
  - apply Hget.
  - apply duration_after_setter.
  - apply Hget.
Qed.

(** ** [_convert_simple_event]: the extraction loop *)

(** All accessors return: the loop collects their values in order. *)
Lemma extraction_loop_all_succeed (fs : list (SimpleEvent → result Value))
    (e : SimpleEvent) (d : Value) (infos acc : list Value) :
  Forall2 (λ f v, f e = Ok v) fs infos →
  extraction_loop fs e d acc = Ok [VTuple (acc ++ infos)].
Proof.
  intros Hall. revert acc.
  induction Hall as [| f v fs infos Hf _ IH]; intros acc; simpl.
  - by rewrite app_nil_r.
  - rewrite Hf, IH. by rewrite <- app_assoc.
Qed.

(** The first accessor that raises decides: an attribute error yields the
    default record whatever was collected before... *)
Lemma extraction_loop_attribute_error
    (before after : list (SimpleEvent → result Value))
    (f : SimpleEvent → result Value) (e : SimpleEvent) (d : Value) (acc : list Value) :
  Forall (succeeds_on e) before →
  f e = Raise AttributeError →
  extraction_loop (before ++ f :: after) e d acc = Ok [default_record d].
Proof.
  intros Hbefore Hf. revert acc.
  induction Hbefore as [| g before [v Hg] _ IH]; intros acc; simpl.
  - by rewrite Hf.
  - rewrite Hg. apply IH.
Qed.

(** ... and any other exception leaves the method. *)
Lemma extraction_loop_other_error
    (before after : list (SimpleEvent → result Value))
    (f : SimpleEvent → result Value) (e : SimpleEvent) (d : Value) (acc : list Value)
    (x : PyException) :
  Forall (succeeds_on e) before →
  f e = Raise x → x ≠ AttributeError →
  extraction_loop (before ++ f :: after) e d acc = Raise x.
Proof.
  intros Hbefore Hf Hx. revert acc.
  induction Hbefore as [| g before [v Hg] _ IH]; intros acc; simpl.
  - rewrite Hf. by destruct x.
  - rewrite Hg. apply IH.
Qed.

(** Whatever the loop returns starts with the duration it was given. *)
Lemma extraction_loop_first_item (fs : list (SimpleEvent → result Value))
    (e : SimpleEvent) (d : Value) (acc data : list Value) :
  extraction_loop fs e d (d :: acc) = Ok data →
  ∃ t, data = [t] ∧ py_getitem t 0 = Ok d.
Proof.
  revert acc. induction fs as [| f fs IH]; intros acc; simpl.
  - intros [= <-]. by eexists.
  - destruct (f e) as [v | x].
    + apply (IH (acc ++ [v])).
    + destruct x; try discriminate. intros [= <-]. by eexists.
Qed.

(** C2, as the code has it.  The accessors are tried in the order
    consonants, vowel, pitch, volume.  When the first one that raises raises
    an attribute error (all accessors before it returned),
    [_convert_simple_event] returns the default record for the whole event:
    no consonants, vowel ["_"], [WesternPitch("c", -1)], [DirectVolume(0)];
    no error reaches the caller. *)
Theorem convert_simple_event_default_record (self : IsisScoreConverter)
    (e : SimpleEvent) (delay d : Value)
    (before after : list (SimpleEvent → result Value))
    (f : SimpleEvent → result Value) :
  duration e = Ok d →
  _extraction_functions self = before ++ f :: after →
  Forall (succeeds_on e) before →
  f e = Raise AttributeError →
  _convert_simple_event self e delay
  = Ok [VTuple [d; VTuple []; VStr "_"; WesternPitch "c" (-1); DirectVolume 0]].
Proof.
  intros Hd Hfs Hbefore Hf. unfold _convert_simple_event.
  rewrite Hd, Hfs. simpl.
  by apply extraction_loop_attribute_error.
Qed.

(** X12.  An exception of another class raised before any attribute error
    is not replaced by the default record: it leaves
    [_convert_simple_event]. *)
Lemma convert_simple_event_propagates (self : IsisScoreConverter)
    (e : SimpleEvent) (delay d : Value)
    (before after : list (SimpleEvent → result Value))
    (f : SimpleEvent → result Value) (x : PyException) :
  duration e = Ok d →
  _extraction_functions self = before ++ f :: after →
  Forall (succeeds_on e) before →
  f e = Raise x → x ≠ AttributeError →
  _convert_simple_event self e delay = Raise x.
Proof.
  intros Hd Hfs Hbefore Hf Hx. unfold _convert_simple_event.
  rewrite Hd, Hfs. simpl.
  by apply extraction_loop_other_error.
Qed.

(** The two outcomes of [_convert_simple_event] for an event whose
    duration reads as [d]. *)
Lemma convert_simple_event_outcomes (self : IsisScoreConverter)
    (e : SimpleEvent) (delay d : Value) :
  duration e = Ok d →
  (∀ infos, Forall2 (λ f v, f e = Ok v) (_extraction_functions self) infos →
     _convert_simple_event self e delay = Ok [VTuple (d :: infos)])
  ∧ (∀ before f after,
       _extraction_functions self = before ++ f :: after →
       Forall (succeeds_on e) before →
       f e = Raise AttributeError →
       _convert_simple_event self e delay = Ok [default_record d])
  ∧ (∀ data, _convert_simple_event self e delay = Ok data →
       ∃ t, data = [t] ∧ py_getitem t 0 = Ok d).
Proof.
  intros Hd. split; [| split].
  - intros infos Hall.
    unfold _convert_simple_event. rewrite Hd. simpl.
    by rewrite (extraction_loop_all_succeed _ _ _ infos).
  - intros before f after Hfs Hbefore Hf.
    unfold _convert_simple_event. rewrite Hd, Hfs. simpl.
    by apply extraction_loop_attribute_error.
  - intros data. unfold _convert_simple_event. rewrite Hd. simpl.
    apply extraction_loop_first_item.
Qed.

(** C9.  Every event has a duration [d], and [d] is the first element of
    the extracted tuple in both outcomes: when every accessor returns, the
    tuple is [d] followed by the four values; when the default record is
    substituted, it is [d] followed by the four defaults.  Whatever the
    method returns has [d] at index 0. *)
Theorem convert_simple_event_keeps_duration (self : IsisScoreConverter)
    (e : SimpleEvent) (delay : Value) :
  constructed e →
  ∃ d,
    duration e = Ok d
    ∧ (∀ infos, Forall2 (λ f v, f e = Ok v) (_extraction_functions self) infos →
         _convert_simple_event self e delay = Ok [VTuple (d :: infos)]
         ∧ py_getitem (VTuple (d :: infos)) 0 = Ok d)
    ∧ (∀ before f after,
         _extraction_functions self = before ++ f :: after →
         Forall (succeeds_on e) before →
         f e = Raise AttributeError →
         _convert_simple_event self e delay = Ok [default_record d]
         ∧ py_getitem (default_record d) 0 = Ok d)
    ∧ (∀ data, _convert_simple_event self e delay = Ok data →
         ∃ t, data = [t] ∧ py_getitem t 0 = Ok d).
Proof.
  intros Hconstructed.
  destruct (constructed_has_duration e Hconstructed) as [d Hd].
  destruct (convert_simple_event_outcomes self e delay d Hd)
    as (Hall & Hdefault & Hfirst).
  exists d. split; [exact Hd |]. split; [| split].
  - intros infos Hinfos. split; [by apply Hall | reflexivity].
  - intros before f after Hfs Hbefore Hf.
    split; [by apply (Hdefault before f after) | reflexivity].
  - exact Hfirst.
Qed.

(** ** [convert]: simultaneous events *)

(** C3.  A [SimultaneousEvent] handed to [convert] goes straight to
    [_convert_simultaneous_event], whatever it contains; [convert] raises
    [NotImplementedError] and the file system is the one it started with. *)
Theorem convert_simultaneous_event_unsupported (self : IsisScoreConverter)
    (events : list Event) (fs : FileSystem) :
  _convert_event self (SimultaneousEvent events) (VInt 0)
  = _convert_simultaneous_event self events (VInt 0)
  ∧ IsisScoreConverter_convert self (SimultaneousEvent events) fs
    = (Raise (NotImplementedError simultaneous_message), fs).
Proof. split; reflexivity. Qed.


(** ** [IsisConverter.convert] *)

Lemma IsisConverter_getattr_isis_score_converter (self : IsisConverter) :
  IsisConverter_getattr self "isis_score_converter"
  = Ok (AttrScoreConverter (isis_score_converter self)).
Proof. reflexivity. Qed.

(** [__init__] never assigns an attribute named [csound_score_converter]. *)
Lemma IsisConverter_getattr_csound_score_converter (self : IsisConverter) :
  IsisConverter_getattr self "csound_score_converter" = Raise AttributeError.
Proof. reflexivity. Qed.

(** With [remove_score_file] set, [convert] cannot complete. *)
Lemma remove_score_file_never_completes (self : IsisConverter) (event : Event)
    (fs : FileSystem) :
  remove_score_file self = true →
  fst (IsisConverter_convert self event fs) ≠ Ok ().
Proof.
  intros Hremove. unfold IsisConverter_convert.
  destruct (IsisScoreConverter_convert _ _ _) as [[[] | x] fs1]; [| done].
  rewrite Hremove, IsisConverter_getattr_csound_score_converter. done.
Qed.

(** C7, what the code does.  With [remove_score_file = True], once the
    score is written and the renderer has run, [convert] raises
    [AttributeError] on [self.csound_score_converter]; the files are those
    the renderer left, [os.remove] is never reached. *)
Theorem remove_score_file_raises (self : IsisConverter) (event : Event)
    (fs fs1 : FileSystem) :
  remove_score_file self = true →
  IsisScoreConverter_convert (isis_score_converter self) event fs = (Ok (), fs1) →
  IsisConverter_convert self event fs
  = (Raise AttributeError, os_system (isis_command self) fs1).
Proof.
  intros Hremove Hscore. unfold IsisConverter_convert.
  rewrite Hscore, Hremove, IsisConverter_getattr_csound_score_converter.
  reflexivity.
Qed.

(** Had the attribute been spelled [isis_score_converter], the score file
    would have been removed. *)
Lemma remove_with_the_right_attribute (self : IsisConverter) (fs : FileSystem)
    (content : string) :
  fs !! path (isis_score_converter self) = Some content →
  match
    converter ← IsisConverter_getattr self "isis_score_converter";
    attribute_path converter
  with
  | Ok score_file => os_remove score_file fs
  | Raise x => (Raise x, fs)
  end = (Ok (), delete (path (isis_score_converter self)) fs).
Proof.
  intros Hfile. rewrite IsisConverter_getattr_isis_score_converter. simpl.
  unfold os_remove. by rewrite Hfile.
Qed.

(** ** [_make_key_from_extracted_data_per_event]: the line groups *)

Lemma extend_last_snoc (finished : list (list Value)) (current items : list Value) :
  extend_last (finished ++ [current]) items = Ok (finished ++ [current ++ items]).
Proof.
  induction finished as [| line finished IH]; [reflexivity |].
  simpl. rewrite IH.
  destruct (finished ++ [current]) eqn:Hshape; [| reflexivity].
  by destruct finished.
Qed.


(** Dropping the empty lines loses no item. *)
Lemma concat_filter_nonempty (lines : list (list Value)) :
  concat (List.filter nonempty lines) = concat lines.
Proof.
  induction lines as [| [| x line] lines IH]; simpl; [done | done |].
  by rewrite IH.
Qed.

(** Floor and ceiling of a quotient, and how the floor moves from one
    index to the next. *)
Lemma ceil_div_floor (a n : Z) :
  0 < n → ceil_div a n = a / n + (if a mod n =? 0 then 0 else 1).
Proof.
  intros Hn. unfold ceil_div.
  pose proof (Z.div_mod a n ltac:(lia)) as Hdm.
  pose proof (Z.mod_pos_bound a n Hn) as Hbound.
  destruct (Z.eqb_spec (a mod n) 0) as [Hz | Hnz].
  - assert (- a / n = - (a / n)) as Hq
      by (symmetry; apply Z.div_unique with (r := 0); lia).
    lia.
  - assert (- a / n = - (a / n) - 1) as Hq
      by (symmetry; apply Z.div_unique with (r := n - a mod n); lia).
    lia.
Qed.

Lemma div_at_break (i n : Z) : 0 < n → i mod n = 0 → i / n = (i - 1) / n + 1.
Proof.
  intros Hn Hmod.
  pose proof (Z.div_mod i n ltac:(lia)) as Hdm.
  assert ((i - 1) / n = i / n - 1) as ->; [| lia].
  symmetry. apply Z.div_unique with (r := n - 1); lia.
Qed.

Lemma div_mod_within_line (i n : Z) :
  0 < n → i mod n ≠ 0 → i / n = (i - 1) / n ∧ i mod n = (i - 1) mod n + 1.
Proof.
  intros Hn Hmod.
  pose proof (Z.div_mod i n ltac:(lia)) as Hdm.
  pose proof (Z.mod_pos_bound i n Hn) as Hbound.
  assert ((i - 1) / n = i / n) as Hq.
  { symmetry. apply Z.div_unique with (r := i mod n - 1); lia. }
  split; [lia |].
  pose proof (Z.div_mod (i - 1) n ltac:(lia)) as Hdm'.
  rewrite Hq in Hdm'. lia.
Qed.



(** For lines of two or more events the count above is the ceiling of
    [N / n_events_per_line] only when [N] leaves remainder one; otherwise it
    is one more. *)
Lemma groups_against_ceiling (n_events N : Z) :
  2 ≤ n_events → 1 ≤ N →
  1 + ceil_div (N - 1) n_events
  = ceil_div N n_events + (if N mod n_events =? 1 then 0 else 1).
Proof.
  intros Hn HN.
  assert (0 < n_events) as Hpos by lia.
  rewrite !(ceil_div_floor _ _ Hpos).
  pose proof (Z.mod_pos_bound N n_events Hpos) as Hbound.
  destruct (Z.eqb_spec (N mod n_events) 0) as [Hzero | Hnonzero].
  - rewrite (div_at_break N n_events Hpos Hzero).
    pose proof (Z.div_mod N n_events ltac:(lia)) as Hdm.
    assert ((N - 1) mod n_events = n_events - 1) as ->.
    { symmetry. apply Z.mod_unique with (q := N / n_events - 1); lia. }
    destruct (Z.eqb_spec (n_events - 1) 0); [lia |].
    rewrite Hzero. simpl. lia.
  - destruct (div_mod_within_line N n_events Hpos Hnonzero) as [-> Hmod].
    destruct (Z.eqb_spec (N mod n_events) 1) as [Hone | Hmore];
      destruct (Z.eqb_spec ((N - 1) mod n_events) 0); lia.
Qed.

(** The rhythm key reads the first element of the extracted tuple. *)
Lemma rhythm_key_one_item (d : Value) (rest : list Value) :
  rhythm_key (VTuple (d :: rest)) = Ok [VStr (py_str d)].
Proof. reflexivity. Qed.

(** C1, at two events.  Two notes for which all four accessors succeed,
    rendered with the default [n_events_per_line = 5], fill two groups of
    the rhythm field, one event each, where the ceiling of [2 / 5] is one.
    Both items are kept. *)
Theorem two_events_fill_two_groups :
  ∃ first second,
    _convert_simple_event (IsisScoreConverter_default "score") (sung_note 1) (VInt 0)
    = Ok [first]
    ∧ _convert_simple_event (IsisScoreConverter_default "score") (sung_note 2) (VInt 0)
      = Ok [second]
    ∧ wrapped_groups (IsisScoreConverter_default "score") [first; second] rhythm_key
      = Ok [[VStr (py_str (VInt 1))]; [VStr (py_str (VInt 2))]]
    ∧ ceil_div 2 (_n_events_per_line (IsisScoreConverter_default "score")) = 1.
Proof.
  eexists _, _. split; [reflexivity |]. split; [reflexivity |].
  split; reflexivity.
Qed.

(** * Further properties of the modelled code *)

(** ** [SimpleEvent]: how attributes are stored *)

Lemma lookup_attribute_storage (self : SimpleEvent) (name : string) :
  lookup_attribute self name = lookup_plain self (storage_key name).
Proof.
  unfold lookup_attribute, storage_key.
  by destruct (decide (name = "duration")).
Qed.

Lemma setattr_storage (self : SimpleEvent) (name : string) (v : Value) :
  instance_dict (SimpleEvent_setattr self name v)
  = <[storage_key name := v]> (instance_dict self).
Proof.
  unfold SimpleEvent_setattr, storage_key.
  by destruct (decide (name = "duration")).
Qed.



(** X3.  [get_parameter] cannot tell an attribute that is missing from one
    that was set to [None]: both give [(None,)]. *)
Theorem get_parameter_none_is_ambiguous (self : SimpleEvent) (name : string) :
  lookup_attribute self name = None →
  get_parameter self name = Ok (VTuple [VNone])
  ∧ get_parameter (SimpleEvent_setattr self name VNone) name = Ok (VTuple [VNone]).
Proof.
  intros Hmissing. split; [by apply get_parameter_absent |].
  unfold get_parameter, SimpleEvent_getattr.
  rewrite lookup_attribute_storage. unfold lookup_plain.
  by rewrite setattr_storage, lookup_insert_eq.
Qed.

(** ** [_make_key_from_extracted_data_per_event]: what the groups hold *)

Lemma extend_last_nonempty (lines : list (list Value)) (items : list Value) :
  lines ≠ [] →
  ∃ finished current,
    lines = finished ++ [current]
    ∧ extend_last lines items = Ok (finished ++ [current ++ items]).
Proof.
  intros Hlines. destruct (exists_last Hlines) as (finished & current & ->).
  exists finished, current. split; [reflexivity | apply extend_last_snoc].
Qed.

Lemma py_mod_nonzero (a b : Z) : b ≠ 0 → py_mod a b = Ok (a mod b).
Proof. intros Hb. unfold py_mod. by destruct (Z.eqb_spec b 0). Qed.

Lemma comprehension_cons_ok {A B : Type} (f : A → result B) (x : A) (xs : list A)
    (ys : list B) :
  comprehension f (x :: xs) = Ok ys →
  ∃ y ys', f x = Ok y ∧ comprehension f xs = Ok ys' ∧ ys = y :: ys'.
Proof.
  simpl. destruct (f x) as [y | e]; [| discriminate]. simpl.
  destruct (comprehension f xs) as [ys' | e]; [| discriminate]. simpl.
  intros [= <-]. by exists y, ys'.
Qed.

(** The loop neither drops nor reorders items, whatever the key. *)
Lemma group_loop_keeps_items (n : Z) (key : Value → result (list Value))
    (data : list Value) :
  n ≠ 0 →
  ∀ (items_per_event : list (list Value)) (i : Z) (lines : list (list Value)),
    comprehension key data = Ok items_per_event →
    lines ≠ [] →
    ∃ result_lines,
      group_loop n key i data lines = Ok result_lines
      ∧ concat result_lines = concat lines ++ concat items_per_event.
Proof.
  intros Hn. induction data as [| d data IH]; intros items_per_event i lines Hkeys Hlines.
  - injection Hkeys as <-. exists lines. simpl. by rewrite app_nil_r.
  - apply comprehension_cons_ok in Hkeys as (items & rest & Hitem & Hrest & ->).
    destruct (extend_last_nonempty lines items Hlines)
      as (finished & current & -> & Hextend).
    simpl group_loop. rewrite Hitem. simpl. rewrite Hextend. simpl.
    rewrite (py_mod_nonzero _ _ Hn). simpl.
    destruct (IH rest (i + 1)
                (if i mod n =? 0 then (finished ++ [current ++ items]) ++ [[]]
                 else finished ++ [current ++ items]) Hrest)
      as (result_lines & Hloop & Hconcat).
    { destruct (i mod n =? 0); by destruct finished. }
    exists result_lines. split; [exact Hloop |].
    rewrite Hconcat. destruct (i mod n =? 0);
      rewrite !concat_app; simpl; rewrite ?app_nil_r, <- ?app_assoc; done.
Qed.

(** X5.  For a non-zero [n_events_per_line] and a key that succeeds on
    every event, the groups hold exactly the items of all events, in event
    order, and no group is empty. *)
Theorem wrapped_groups_keep_items (self : IsisScoreConverter)
    (key : Value → result (list Value)) (data : list Value)
    (items_per_event : list (list Value)) :
  _n_events_per_line self ≠ 0 →
  comprehension key data = Ok items_per_event →
  ∃ groups,
    wrapped_groups self data key = Ok groups
    ∧ concat groups = concat items_per_event
    ∧ Forall (λ group, group ≠ []) groups.
Proof.
  intros Hn Hkeys. unfold wrapped_groups.
  destruct (group_loop_keeps_items _ key data Hn items_per_event 0 [[]] Hkeys)
    as (lines & Hloop & Hconcat); [done |].
  rewrite Hloop. simpl. exists (List.filter nonempty lines).
  split; [reflexivity |]. split.
  - by rewrite concat_filter_nonempty, Hconcat.
  - apply List.Forall_forall. intros group Hin.
    apply List.filter_In in Hin as [_ Hnonempty]. by destruct group.
Qed.

(** The first key that raises ends the loop with its exception. *)
Lemma group_loop_key_raises (n : Z) (key : Value → result (list Value))
    (before after : list Value) (d : Value) (x : PyException) :
  n ≠ 0 →
  Forall (λ d', ∃ items, key d' = Ok items) before →
  key d = Raise x →
  ∀ (i : Z) (lines : list (list Value)),
    lines ≠ [] →
    group_loop n key i (before ++ d :: after) lines = Raise x.
Proof.
  intros Hn Hbefore Hd.
  induction Hbefore as [| d' before [items Hitems] _ IH]; intros i lines Hlines.
  - simpl. by rewrite Hd.
  - destruct (extend_last_nonempty lines items Hlines)
      as (finished & current & -> & Hextend).
    simpl app. simpl group_loop. rewrite Hitems. simpl. rewrite Hextend. simpl.
    rewrite (py_mod_nonzero _ _ Hn). simpl.
    apply IH. destruct (i mod n =? 0); by destruct finished.
Qed.

(** X6.  When the key raises on some event and succeeded on all events
    before it, [_make_key_from_extracted_data_per_event] raises that very
    exception (for a non-zero [n_events_per_line]). *)
Theorem make_key_raises_what_the_key_raises (self : IsisScoreConverter)
    (key_name : string) (key : Value → result (list Value))
    (before after : list Value) (d : Value) (x : PyException) :
  _n_events_per_line self ≠ 0 →
  Forall (λ d', ∃ items, key d' = Ok items) before →
  key d = Raise x →
  _make_key_from_extracted_data_per_event self key_name (before ++ d :: after) key
  = Raise x.
Proof.
  intros Hn Hbefore Hd.
  unfold _make_key_from_extracted_data_per_event, wrapped_groups.
  by rewrite (group_loop_key_raises _ key before after d x Hn Hbefore Hd).
Qed.

(** The loop entered as in [group_loop_invariant]: no line grows beyond
    [n] items. *)
Lemma group_loop_line_width (n : Z) (key : Value → result (list Value))
    (data : list Value) :
  0 < n → one_item_per_event key data →
  ∀ (i : Z) (finished : list (list Value)) (current : list Value),
    1 ≤ i →
    Z.of_nat (length current) = (i - 1) mod n →
    Forall (λ line, Z.of_nat (length line) ≤ n) finished →
    ∃ lines,
      group_loop n key i data (finished ++ [current]) = Ok lines
      ∧ Forall (λ line, Z.of_nat (length line) ≤ n) lines.
Proof.
  intros Hn Hkey.
  induction Hkey as [| d data [item Hitem] _ IH];
    intros i finished current Hi Hcur Hfinished.
  - exists (finished ++ [current]). split; [reflexivity |].
    apply Forall_app. split; [exact Hfinished |].
    constructor; [| constructor].
    pose proof (Z.mod_pos_bound (i - 1) n Hn). lia.
  - simpl group_loop. rewrite Hitem. simpl.
    rewrite extend_last_snoc. simpl.
    rewrite py_mod_nonzero by lia. simpl.
    assert (Z.of_nat (length (current ++ [item])) = (i - 1) mod n + 1) as Hgrown
      by (rewrite length_app, Nat2Z.inj_add; simpl length; lia).
    pose proof (Z.mod_pos_bound (i - 1) n Hn) as Hbound.
    destruct (Z.eqb_spec (i mod n) 0) as [Hbreak | Hstay].
    + apply (IH (i + 1) (finished ++ [current ++ [item]]) []).
      * lia.
      * replace (i + 1 - 1) with i by lia. by rewrite Hbreak.
      * apply Forall_app. split; [exact Hfinished |].
        constructor; [lia | constructor].
    + destruct (div_mod_within_line i n Hn Hstay) as [_ Hmod].
      apply (IH (i + 1) finished (current ++ [item])).
      * lia.
      * replace (i + 1 - 1) with i by lia. lia.
      * exact Hfinished.
Qed.

(** X7.  For a positive [n_events_per_line] and a field with one item per
    event, every group holds at least one and at most [n_events_per_line]
    items. *)
Theorem wrapped_groups_line_width (self : IsisScoreConverter)
    (key : Value → result (list Value)) (data : list Value) :
  0 < _n_events_per_line self → one_item_per_event key data →
  ∃ groups,
    wrapped_groups self data key = Ok groups
    ∧ Forall (λ group, 1 ≤ Z.of_nat (length group) ≤ _n_events_per_line self) groups.
Proof.
  intros Hn Hkey. unfold wrapped_groups.
  assert (∃ lines,
            group_loop (_n_events_per_line self) key 0 data [[]] = Ok lines
            ∧ Forall (λ line, Z.of_nat (length line) ≤ _n_events_per_line self) lines)
    as (lines & Hloop & Hwidth).
  { destruct Hkey as [| d rest [item Hitem] Hrest].
    - exists [[]]. split; [reflexivity |]. constructor; [simpl; lia | constructor].
    - simpl group_loop. rewrite Hitem. simpl.
      rewrite py_mod_nonzero by lia. simpl.
      change ([[item]; []]) with ([[item]] ++ [[]]). change (0 + 1) with 1.
      apply (group_loop_line_width _ key rest Hn Hrest 1 [[item]] []).
      + lia.
      + by rewrite Z.mod_0_l by lia.
      + constructor; [simpl; lia | constructor]. }
  rewrite Hloop. simpl. exists (List.filter nonempty lines).
  split; [reflexivity |].
  apply List.Forall_forall. intros group Hin.
  apply List.filter_In in Hin as [Hin Hnonempty].
  rewrite List.Forall_forall in Hwidth. specialize (Hwidth group Hin).
  destruct group; [discriminate | simpl length in *; lia].
Qed.

(** X8.  With [n_events_per_line = 0] the modulo raises [ZeroDivisionError]
    at the first event (after its key was computed), while an empty list of
    events renders as the bare label for every [n_events_per_line]. *)
Theorem make_key_zero_events_per_line (self : IsisScoreConverter)
    (key_name : string) (key : Value → result (list Value))
    (d : Value) (rest items : list Value) :
  _n_events_per_line self = 0 →
  key d = Ok items →
  _make_key_from_extracted_data_per_event self key_name (d :: rest) key
  = Raise ZeroDivisionError
  ∧ _make_key_from_extracted_data_per_event self key_name [] key
    = Ok (key_name +:+ ": ").
Proof.
  intros Hn Hitems. split; [| reflexivity].
  unfold _make_key_from_extracted_data_per_event, wrapped_groups.
  simpl group_loop. rewrite Hitems, Hn. reflexivity.
Qed.

(** The sign of [n] does not matter to the break test. *)
Lemma group_loop_opp (n : Z) (key : Value → result (list Value)) (data : list Value) :
  ∀ (i : Z) (lines : list (list Value)),
    group_loop (- n) key i data lines = group_loop n key i data lines.
Proof.
  induction data as [| d data IH]; intros i lines; [reflexivity |].
  simpl. destruct (key d) as [items | x]; [| reflexivity]. simpl.
  destruct (extend_last lines items) as [extended | x]; [| reflexivity]. simpl.
  unfold py_mod.
  destruct (Z.eqb_spec n 0) as [-> | Hn]; [reflexivity |].
  destruct (Z.eqb_spec (- n) 0) as [Hzero | _]; [lia |]. simpl.
  assert ((i mod - n =? 0) = (i mod n =? 0)) as ->; [| apply IH].
  destruct (Z.eqb_spec (i mod n) 0) as [Hdiv | Hndiv].
  - apply Z.eqb_eq. apply Z.mod_divide; [lia |].
    apply (proj2 (Z.divide_opp_l n i)). by apply Z.mod_divide.
  - apply Z.eqb_neq. intros Hdiv. apply Hndiv.
    apply Z.mod_divide; [lia |]. apply Z.mod_divide in Hdiv; [| lia].
    exact (proj1 (Z.divide_opp_l n i) Hdiv).
Qed.

(** X9.  A negative [n_events_per_line] wraps exactly like its absolute
    value: two converters whose [n_events_per_line] differ only in sign
    render every field alike. *)
Theorem make_key_ignores_sign (self other : IsisScoreConverter)
    (key_name : string) (key : Value → result (list Value)) (data : list Value) :
  _n_events_per_line other = - _n_events_per_line self →
  _make_key_from_extracted_data_per_event other key_name data key
  = _make_key_from_extracted_data_per_event self key_name data key.
Proof.
  intros Hsign.
  unfold _make_key_from_extracted_data_per_event, wrapped_groups.
  by rewrite Hsign, group_loop_opp.
Qed.




(** ** From events to the lyrics *)

(** X11.  Consonants must be a tuple.  When the consonants accessor returns
    a list (as the example in the docstring of [convert] sets them) and all
    accessors succeed, the extracted tuple is built, but the lyrics key adds
    a tuple to that list and the lyrics section raises [TypeError]. *)
Theorem lyrics_reject_list_consonants (self : IsisScoreConverter)
    (e : SimpleEvent) (delay d vowel pitch volume : Value) (consonants : list Value) :
  duration e = Ok d →
  Forall2 (λ f x, f e = Ok x) (_extraction_functions self)
    [VList consonants; vowel; pitch; volume] →
  ∃ data,
    _convert_simple_event self e delay = Ok data
    ∧ _make_lyrics_section_from_extracted_data_per_event self data = Raise TypeError.
Proof.
  intros Hd Hall.
  exists [VTuple [d; VList consonants; vowel; pitch; volume]]. split.
  - unfold _convert_simple_event. rewrite Hd. simpl.
    by rewrite (extraction_loop_all_succeed _ _ _ _ _ Hall).
  - reflexivity.
Qed.

(** X13.  Whatever the order of the keyword arguments of [__init__], the
    extracted tuple of an event on which all four accessors succeed is
    (duration, consonants, vowel, pitch, volume). *)
Theorem extracted_tuple_layout (path : string)
    (simple_event_to_pitch simple_event_to_volume
     simple_event_to_vowel simple_event_to_consonants : SimpleEvent → result Value)
    (tempo global_transposition default_sentence_loudness : Value)
    (n_events_per_line : Z)
    (e : SimpleEvent) (delay d consonants vowel pitch volume : Value) :
  duration e = Ok d →
  simple_event_to_consonants e = Ok consonants →
  simple_event_to_vowel e = Ok vowel →
  simple_event_to_pitch e = Ok pitch →
  simple_event_to_volume e = Ok volume →
  _convert_simple_event
    (IsisScoreConverter_init path simple_event_to_pitch simple_event_to_volume
       simple_event_to_vowel simple_event_to_consonants
       tempo global_transposition default_sentence_loudness n_events_per_line)
    e delay
  = Ok [VTuple [d; consonants; vowel; pitch; volume]].
Proof.
  intros Hd Hc Hv Hp Ha. unfold _convert_simple_event. rewrite Hd. simpl.
  by rewrite Hc, Hv, Hp, Ha.
Qed.

(** X14.  With the default accessors a rest is not given the default
    record: when consonants and vowel are set and the list of pitches is
    empty, [pitch_or_pitches[0]] raises [IndexError], which leaves
    [_convert_simple_event]. *)
Theorem rest_raises_index_error (path : string) (e : SimpleEvent)
    (delay d consonants vowel : Value) :
  duration e = Ok d →
  SimpleEvent_getattr e "consonants" = Ok consonants →
  SimpleEvent_getattr e "vowel" = Ok vowel →
  SimpleEvent_getattr e "pitch_or_pitches" = Ok (VList []) →
  _convert_simple_event (IsisScoreConverter_default path) e delay = Raise IndexError.
Proof.
  intros Hd Hc Hv Hp. unfold _convert_simple_event. rewrite Hd. simpl.
  unfold default_simple_event_to_consonants, default_simple_event_to_vowel,
    default_simple_event_to_pitch.
  by rewrite Hc, Hv, Hp.
Qed.

(** X15.  An event that lacks an attribute is sung as the single symbol
    ["_"]: the record substituted by [_convert_simple_event] renders, for a
    non-zero [n_events_per_line], as the lyrics section with that one item. *)
Theorem missing_attribute_renders_silence (self : IsisScoreConverter)
    (e : SimpleEvent) (delay d : Value)
    (before after : list (SimpleEvent → result Value))
    (f : SimpleEvent → result Value) :
  duration e = Ok d →
  _extraction_functions self = before ++ f :: after →
  Forall (succeeds_on e) before →
  f e = Raise AttributeError →
  _n_events_per_line self ≠ 0 →
  ∃ data,
    _convert_simple_event self e delay = Ok data
    ∧ _make_lyrics_section_from_extracted_data_per_event self data
      = Ok ("[lyrics]" +:+ newline +:+ "xsampa: _").
Proof.
  intros Hd Hfs Hbefore Hf Hn. exists [default_record d]. split.
  - unfold _convert_simple_event. rewrite Hd, Hfs. simpl.
    by apply extraction_loop_attribute_error.
  - unfold _make_lyrics_section_from_extracted_data_per_event,
      _make_key_from_extracted_data_per_event, wrapped_groups.
    simpl group_loop. rewrite (py_mod_nonzero _ _ Hn). reflexivity.
Qed.

(** ** What the converters do to the files *)



Lemma string_append_nil_r (s : string) : s +:+ "" = s.
Proof.
  induction s as [| c s IH]; [done |].
  change (String c (s +:+ "") = String c s). by rewrite IH.
Qed.

Lemma string_append_assoc (s t u : string) : (s +:+ t) +:+ u = s +:+ (t +:+ u).
Proof.
  induction s as [| c s IH]; [done |].
  change (String c ((s +:+ t) +:+ u) = String c (s +:+ (t +:+ u))). by rewrite IH.
Qed.

Lemma fold_left_flags (flag : list string) (command : string) :
  fold_left (λ command flag, command +:+ " " +:+ flag +:+ " ") flag command
  = command +:+ fold_right (λ flag rest, " " +:+ flag +:+ " " +:+ rest) "" flag.
Proof.
  revert command. induction flag as [| first flag IH]; intros command; simpl.
  - by rewrite string_append_nil_r.
  - rewrite IH. by rewrite !string_append_assoc.
Qed.

(** X18.  The command line is [isis.sh -m <score> -o <sound>] followed by
    the flags in the order given, each between two spaces; with no flag it
    is that prefix alone. *)
Theorem isis_command_lists_flags (self : IsisConverter) :
  isis_command self
  = "isis.sh -m " +:+ path (isis_score_converter self) +:+ " -o "
    +:+ sound_path self
    +:+ fold_right (λ flag rest, " " +:+ flag +:+ " " +:+ rest) "" (flags self).
Proof.
  unfold isis_command. rewrite fold_left_flags.
  by rewrite !string_append_assoc.
Qed.


End Mutwo.

(** ** The sone to phon formula *)

Section Loudness.

Local Open Scope R_scope.

(** Bounds on [a ^ 0.35] from integer powers: [a ^ 0.35] is the positive
    twentieth root of [a ^ 7]. *)
Lemma Rpower_seven_twentieths (a : R) :
  0 < a → Rpower a 0.35 ^ 20 = a ^ 7.
Proof.
  intros Ha.
  assert (0 < Rpower a 0.35) as Hpos by apply exp_pos.
  rewrite <- (Rpower_pow 20 _ Hpos), Rpower_mult.
  replace (0.35 * INR 20) with (INR 7) by (simpl; lra).
  by apply Rpower_pow.
Qed.

Lemma Rpower_seven_twentieths_bounds (a lo hi : R) :
  0 < a → 0 < hi →
  lo ^ 20 < a ^ 7 → a ^ 7 < hi ^ 20 →
  lo < Rpower a 0.35 < hi.
Proof.
  intros Ha Hhi Hlo_pow Hhi_pow.
  assert (0 < Rpower a 0.35) as Hpos by apply exp_pos.
  pose proof (Rpower_seven_twentieths a Ha) as Hroot.
  split; apply Rnot_le_lt; intros Hle.
  - destruct (Rle_lt_dec 0 lo) as [Hlo | Hlo]; [| lra].
    pose proof (pow_incr (Rpower a 0.35) lo 20 ltac:(lra)). lra.
  - pose proof (pow_incr hi (Rpower a 0.35) 20 ltac:(lra)). lra.
Qed.

Lemma sone_to_phon_at_one : sone_to_phon 1 = 40.
Proof.
  unfold sone_to_phon, sone_to_phon_high.
  destruct (Rle_dec 1 1) as [_ | Hn]; [| lra].
  rewrite ln_1. lra.
Qed.

Lemma sone_to_phon_at_two : sone_to_phon 2 = 50.
Proof.
  unfold sone_to_phon, sone_to_phon_high.
  destruct (Rle_dec 1 2) as [_ | Hn]; [| lra].
  pose proof ln_lt_2 as Hln.
  replace (ln 2 / ln 2) with 1 by (field; lra). lra.
Qed.

Lemma sone_to_phon_at_half :
  31.3943445253448 < sone_to_phon 0.5 < 31.3943445253452.
Proof.
  unfold sone_to_phon, sone_to_phon_low.
  destruct (Rle_dec 1 0.5) as [Hle | _]; [lra |].
  replace (0.5 + 0.0005) with 0.5005 by lra.
  destruct (Rpower_seven_twentieths_bounds 0.5005 0.78485861313362 0.78485861313363)
    as [Hlo Hhi]; lra.
Qed.

(** C4.  [sone_to_phon] is the piecewise formula of the specification:
    [40 + 10 * log2(x)] from 1 on, [40 * (x + 0.0005) ^ 0.35] below 1.  It
    gives exactly 40 at 1 and exactly 50 at 2; at 0.5 it is within [1e-9] of
    31.394344525, and within [1e-12] of the value 31.39434452534506 that the
    test suite expects. *)
Theorem sone_to_phon_piecewise_values :
  (∀ loudness_in_sone,
     sone_to_phon loudness_in_sone
     = if Rle_dec 1 loudness_in_sone
       then 40 + 10 * (ln loudness_in_sone / ln 2)
       else 40 * Rpower (loudness_in_sone + 0.0005) 0.35)
  ∧ sone_to_phon 1 = 40
  ∧ sone_to_phon 2 = 50
  ∧ Rabs (sone_to_phon 0.5 - 31.394344525) < 1 / 10 ^ 9
  ∧ Rabs (sone_to_phon 0.5 - 31.39434452534506) < 1 / 10 ^ 12.
Proof.
  split; [reflexivity |].
  split; [apply sone_to_phon_at_one |].
  split; [apply sone_to_phon_at_two |].
  pose proof sone_to_phon_at_half as [Hlo Hhi].
  split; apply Rabs_def1; lra.
Qed.

(** The low branch just below the boundary, and at it. *)
Lemma sone_to_phon_low_near_one (x : R) :
  0.9999 <= x → 40.0055 < sone_to_phon_low x.
Proof.
  intros Hx. unfold sone_to_phon_low.
  destruct (Rpower_seven_twentieths_bounds 1.0004 1.000139 2) as [Hlo _];
    [lra | lra | lra | lra |].
  pose proof (Rle_Rpower_l 1.0004 (x + 0.0005) 0.35 ltac:(lra) ltac:(lra)).
  lra.
Qed.

Lemma sone_to_phon_low_at_one :
  40.0069 < sone_to_phon_low 1 < 40.0070.
Proof.
  unfold sone_to_phon_low.
  replace (1 + 0.0005) with 1.0005 by lra.
  destruct (Rpower_seven_twentieths_bounds 1.0005 1.0001749 1.0001750)
    as [Hlo Hhi]; lra.
Qed.

Lemma sone_to_phon_high_at_one : sone_to_phon_high 1 = 40.
Proof. unfold sone_to_phon_high. rewrite ln_1. lra. Qed.

(** Loudness slightly under one sone maps to more phon than one sone. *)
Lemma sone_to_phon_drops_at_one :
  0.9999 < 1 ∧ sone_to_phon 1 < sone_to_phon 0.9999.
Proof.
  split; [lra |].
  rewrite sone_to_phon_at_one. unfold sone_to_phon.
  destruct (Rle_dec 1 0.9999) as [Hle | _]; [lra |].
  pose proof (sone_to_phon_low_near_one 0.9999 ltac:(lra)). lra.
Qed.

Lemma sone_to_phon_not_continuous_at_one : ¬ continuity_pt sone_to_phon 1.
Proof.
  intros Hcont.
  destruct (Hcont 0.005 ltac:(lra)) as (alp & Halp & Hlim).
  set (x := 1 - Rmin alp 0.0001 / 2).
  pose proof (Rmin_l alp 0.0001) as Hmin_l.
  pose proof (Rmin_r alp 0.0001) as Hmin_r.
  assert (0 < Rmin alp 0.0001) as Hmin_pos by (apply Rmin_glb_lt; lra).
  specialize (Hlim x).
  assert (D_x no_cond 1 x ∧ dist R_met x 1 < alp) as Hnear.
  { split.
    - split; [exact I | unfold x; lra].
    - simpl. unfold Rdist. rewrite Rabs_left; unfold x; lra. }
  specialize (Hlim Hnear). simpl in Hlim. unfold Rdist in Hlim.
  rewrite sone_to_phon_at_one in Hlim.
  unfold sone_to_phon in Hlim.
  destruct (Rle_dec 1 x) as [Hle | _]; [unfold x in Hle; lra |].
  pose proof (sone_to_phon_low_near_one x ltac:(unfold x; lra)) as Hlow.
  rewrite Rabs_right in Hlim; lra.
Qed.

(** C6, as the formula has it.  At loudness 1 the high branch gives exactly
    40 and the low branch a value between 40.0069 and 40.0070: the branches
    differ by about 0.007 phon, and [sone_to_phon], which takes the high
    branch at 1, is not continuous there. *)
Theorem sone_to_phon_jump_at_one :
  sone_to_phon_high 1 = 40
  ∧ 40.0069 < sone_to_phon_low 1 < 40.0070
  ∧ 0.0069 < sone_to_phon_low 1 - sone_to_phon_high 1 < 0.0070
  ∧ ¬ continuity_pt sone_to_phon 1.
Proof.
  pose proof sone_to_phon_low_at_one as Hlow.
  pose proof sone_to_phon_high_at_one as Hhigh.
  split; [exact Hhigh |]. split; [exact Hlow |].
  split; [lra |]. apply sone_to_phon_not_continuous_at_one.
Qed.

(** C6, as stated, fails: the two branch values at loudness 1 are not equal
    up to the tolerance of the test suite. *)
Lemma branches_disagree_at_one :
  ¬ almost_equal (sone_to_phon_low 1) (sone_to_phon_high 1).
Proof.
  unfold almost_equal.
  pose proof sone_to_phon_low_at_one as Hlow.
  rewrite sone_to_phon_high_at_one, Rabs_right; lra.
Qed.

End Loudness.

(** ** The properties at sample inputs *)

(** A note without a vowel: the consonants are read, the vowel accessor
    raises an attribute error, the whole record is the default one. *)
Lemma default_record_for_note_without_vowel :
  duration no_inherited note_without_vowel = Ok (VInt 1)
  ∧ Forall (succeeds_on note_without_vowel)
      [default_simple_event_to_consonants no_inherited]
  ∧ default_simple_event_to_vowel no_inherited note_without_vowel
    = Raise AttributeError
  ∧ _convert_simple_event no_inherited
      (IsisScoreConverter_default no_inherited "score") note_without_vowel (VInt 0)
    = Ok [VTuple [VInt 1; VTuple []; VStr "_"; WesternPitch "c" (-1); DirectVolume 0]].
Proof.
  assert (Forall (succeeds_on note_without_vowel)
            [default_simple_event_to_consonants no_inherited]) as Hbefore.
  { constructor; [| constructor]. exists (VTuple []). reflexivity. }
  split; [reflexivity |]. split; [exact Hbefore |]. split; [reflexivity |].
  apply (convert_simple_event_default_record no_inherited
           (IsisScoreConverter_default no_inherited "score")
           note_without_vowel (VInt 0) (VInt 1)
           [default_simple_event_to_consonants no_inherited]
           [default_simple_event_to_pitch no_inherited;
            default_simple_event_to_volume no_inherited]
           (default_simple_event_to_vowel no_inherited)).
  - reflexivity.
  - reflexivity.
  - exact Hbefore.
  - reflexivity.
Defined.

(** C2, as stated, fails.  On a rest that has lyrics but no volume the
    volume accessor raises an attribute error, yet the pitch accessor, which
    runs first, raises [IndexError] on the empty list of pitches, and that is
    what [_convert_simple_event] raises. *)
Lemma index_error_before_attribute_error :
  ¬ (∀ (self : IsisScoreConverter) (e : SimpleEvent) (d : Value),
       duration no_inherited e = Ok d →
       (∃ f, f ∈ _extraction_functions self ∧ f e = Raise AttributeError) →
       _convert_simple_event no_inherited self e (VInt 0) = Ok [default_record d]).
Proof.
  intros Hclaim.
  specialize (Hclaim (IsisScoreConverter_default no_inherited "score")
                rest_without_volume (VInt 1) eq_refl).
  assert (_convert_simple_event no_inherited
            (IsisScoreConverter_default no_inherited "score")
            rest_without_volume (VInt 0) = Raise IndexError) as Hraise
    by reflexivity.
  rewrite Hraise in Hclaim.
  assert (Raise IndexError = Ok [default_record (VInt 1)]) as Habsurd; [| discriminate].
  apply Hclaim. exists (default_simple_event_to_volume no_inherited).
  split; [| reflexivity].
  unfold IsisScoreConverter_default, IsisScoreConverter_init. simpl.
  do 3 apply list_elem_of_further. apply list_elem_of_here.
Qed.

(** The duration of a sung note heads its extracted tuple. *)
Lemma sung_note_keeps_duration :
  constructed (sung_note 1)
  ∧ ∃ d,
      duration no_inherited (sung_note 1) = Ok d
      ∧ ∀ data,
          _convert_simple_event no_inherited
            (IsisScoreConverter_default no_inherited "score") (sung_note 1) (VInt 0)
          = Ok data →
          ∃ t, data = [t] ∧ py_getitem t 0 = Ok d.
Proof.
  assert (constructed (sung_note 1)) as Hconstructed by repeat constructor.
  split; [exact Hconstructed |].
  destruct (convert_simple_event_keeps_duration no_inherited
              (IsisScoreConverter_default no_inherited "score")
              (sung_note 1) (VInt 0) Hconstructed)
    as (d & Hd & _ & _ & Hfirst).
  exists d. split; [exact Hd | exact Hfirst].
Defined.

(** A converter asked to remove its score file, run on one sung note with
    no renderer installed: the score is written, then [convert] raises. *)
Lemma remove_score_file_raises_on_a_note :
  remove_score_file
    (IsisConverter_init "out.wav" (IsisScoreConverter_default no_inherited "score")
       [] true) = true
  ∧ IsisScoreConverter_convert no_inherited sample_str sample_midi_pitch_number
      sample_amplitude sample_start_after
      (IsisScoreConverter_default no_inherited "score") (Simple (sung_note 1)) ∅
    = (Ok (),
       snd (IsisScoreConverter_convert no_inherited sample_str
              sample_midi_pitch_number sample_amplitude sample_start_after
              (IsisScoreConverter_default no_inherited "score")
              (Simple (sung_note 1)) ∅))
  ∧ IsisConverter_convert no_inherited sample_str sample_midi_pitch_number
      sample_amplitude sample_start_after sample_os_system
      (IsisConverter_init "out.wav" (IsisScoreConverter_default no_inherited "score")
         [] true)
      (Simple (sung_note 1)) ∅
    = (Raise AttributeError,
       sample_os_system
         (isis_command
            (IsisConverter_init "out.wav"
               (IsisScoreConverter_default no_inherited "score") [] true))
         (snd (IsisScoreConverter_convert no_inherited sample_str
                 sample_midi_pitch_number sample_amplitude sample_start_after
                 (IsisScoreConverter_default no_inherited "score")
                 (Simple (sung_note 1)) ∅))).
Proof.
  split; [reflexivity |]. split; [reflexivity |].
  apply (remove_score_file_raises no_inherited sample_str sample_midi_pitch_number
           sample_amplitude sample_start_after sample_os_system
           (IsisConverter_init "out.wav"
              (IsisScoreConverter_default no_inherited "score") [] true)
           (Simple (sung_note 1)) ∅).
  - reflexivity.
  - reflexivity.
Defined.

(** In that run the score file is still there afterwards. *)
Lemma score_file_left_behind :
  is_Some
    (snd (IsisConverter_convert no_inherited sample_str sample_midi_pitch_number
            sample_amplitude sample_start_after sample_os_system
            (IsisConverter_init "out.wav"
               (IsisScoreConverter_default no_inherited "score") [] true)
            (Simple (sung_note 1)) ∅)
     !! "score").
Proof. vm_compute. eexists. reflexivity. Qed.

(** The rhythm field of two sung notes as it is written to the score. *)
Lemma rhythm_of_two_notes_rendered :
  _make_key_from_extracted_data_per_event
    (IsisScoreConverter_default no_inherited "score") "rhythm"
    [VTuple [VInt 1; VTuple [VStr "t"]; VStr "a"; WesternPitch "c" 4; DirectVolume 1];
     VTuple [VInt 2; VTuple [VStr "t"]; VStr "a"; WesternPitch "c" 4; DirectVolume 1]]
    (rhythm_key sample_str)
  = Ok ("rhythm: 1," +:+ newline +:+ "        2").
Proof. reflexivity. Qed.

(** ** The further properties at sample inputs *)


Lemma vowel_of_fresh_event_is_ambiguous :
  lookup_attribute no_inherited (SimpleEvent_init (VInt 1)) "vowel" = None
  ∧ get_parameter no_inherited (SimpleEvent_init (VInt 1)) "vowel"
    = Ok (VTuple [VNone])
  ∧ get_parameter no_inherited
      (SimpleEvent_setattr (SimpleEvent_init (VInt 1)) "vowel" VNone) "vowel"
    = Ok (VTuple [VNone]).
Proof.
  split; [reflexivity |].
  apply (get_parameter_none_is_ambiguous no_inherited (SimpleEvent_init (VInt 1))
           "vowel").
  reflexivity.
Defined.

Lemma rhythm_one_item_per_event (data : list Z) :
  one_item_per_event (rhythm_key sample_str) (map sung_tuple data).
Proof.
  induction data as [| d data IH]; constructor; [| exact IH].
  by exists (VStr (sample_str (VInt d))).
Defined.




Lemma lyrics_of_two_notes_keep_items :
  _n_events_per_line (converter_wrapping_at no_inherited 5) ≠ 0
  ∧ comprehension xsampa_key (map sung_tuple [1; 2])
    = Ok [[VStr "t"; VStr "a"]; [VStr "t"; VStr "a"]]
  ∧ ∃ groups,
      wrapped_groups (converter_wrapping_at no_inherited 5)
        (map sung_tuple [1; 2]) xsampa_key = Ok groups
      ∧ concat groups = concat [[VStr "t"; VStr "a"]; [VStr "t"; VStr "a"]]
      ∧ Forall (λ group, group ≠ []) groups.
Proof.
  assert (_n_events_per_line (converter_wrapping_at no_inherited 5) ≠ 0) as Hn
    by discriminate.
  split; [exact Hn |]. split; [reflexivity |].
  apply (wrapped_groups_keep_items (converter_wrapping_at no_inherited 5)
           xsampa_key (map sung_tuple [1; 2])
           [[VStr "t"; VStr "a"]; [VStr "t"; VStr "a"]] Hn).
  reflexivity.
Defined.

Lemma rhythm_of_an_empty_tuple_raises :
  _n_events_per_line (converter_wrapping_at no_inherited 5) ≠ 0
  ∧ Forall (λ d', ∃ items, rhythm_key sample_str d' = Ok items) [sung_tuple 1]
  ∧ rhythm_key sample_str (VTuple []) = Raise IndexError
  ∧ _make_key_from_extracted_data_per_event (converter_wrapping_at no_inherited 5)
      "rhythm" ([sung_tuple 1] ++ VTuple [] :: [sung_tuple 2]) (rhythm_key sample_str)
    = Raise IndexError.
Proof.
  assert (_n_events_per_line (converter_wrapping_at no_inherited 5) ≠ 0) as Hn
    by discriminate.
  assert (Forall (λ d', ∃ items, rhythm_key sample_str d' = Ok items) [sung_tuple 1])
    as Hbefore.
  { constructor; [| constructor]. by eexists. }
  split; [exact Hn |]. split; [exact Hbefore |]. split; [reflexivity |].
  apply (make_key_raises_what_the_key_raises (converter_wrapping_at no_inherited 5)
           "rhythm" (rhythm_key sample_str) [sung_tuple 1] [sung_tuple 2]
           (VTuple []) IndexError Hn Hbefore).
  reflexivity.
Defined.

Lemma seven_notes_fill_lines_of_five :
  0 < _n_events_per_line (converter_wrapping_at no_inherited 5)
  ∧ one_item_per_event (rhythm_key sample_str) (map sung_tuple [1; 2; 3; 4; 5; 6; 7])
  ∧ ∃ groups,
      wrapped_groups (converter_wrapping_at no_inherited 5)
        (map sung_tuple [1; 2; 3; 4; 5; 6; 7]) (rhythm_key sample_str) = Ok groups
      ∧ Forall (λ group, 1 ≤ Z.of_nat (length group)
                         ≤ _n_events_per_line (converter_wrapping_at no_inherited 5))
          groups.
Proof.
  assert (0 < _n_events_per_line (converter_wrapping_at no_inherited 5)) as Hn
    by reflexivity.
  split; [exact Hn |].
  split; [apply rhythm_one_item_per_event |].
  exact (wrapped_groups_line_width (converter_wrapping_at no_inherited 5)
           (rhythm_key sample_str) (map sung_tuple [1; 2; 3; 4; 5; 6; 7])
           Hn (rhythm_one_item_per_event [1; 2; 3; 4; 5; 6; 7])).
Defined.

Lemma zero_events_per_line_raises :
  _n_events_per_line (converter_wrapping_at no_inherited 0) = 0
  ∧ rhythm_key sample_str (sung_tuple 1) = Ok [VStr "1"]
  ∧ _make_key_from_extracted_data_per_event (converter_wrapping_at no_inherited 0)
      "rhythm" [sung_tuple 1; sung_tuple 2] (rhythm_key sample_str)
    = Raise ZeroDivisionError
  ∧ _make_key_from_extracted_data_per_event (converter_wrapping_at no_inherited 0)
      "rhythm" [] (rhythm_key sample_str)
    = Ok "rhythm: ".
Proof.
  split; [reflexivity |]. split; [reflexivity |].
  apply (make_key_zero_events_per_line (converter_wrapping_at no_inherited 0)
           "rhythm" (rhythm_key sample_str) (sung_tuple 1) [sung_tuple 2]
           [VStr "1"]); reflexivity.
Defined.

Lemma minus_five_wraps_like_five :
  _n_events_per_line (converter_wrapping_at no_inherited (-5))
  = - _n_events_per_line (converter_wrapping_at no_inherited 5)
  ∧ _make_key_from_extracted_data_per_event (converter_wrapping_at no_inherited (-5))
      "rhythm" (map sung_tuple [1; 2; 3]) (rhythm_key sample_str)
    = _make_key_from_extracted_data_per_event (converter_wrapping_at no_inherited 5)
        "rhythm" (map sung_tuple [1; 2; 3]) (rhythm_key sample_str).
Proof.
  split; [reflexivity |].
  apply (make_key_ignores_sign (converter_wrapping_at no_inherited 5)
           (converter_wrapping_at no_inherited (-5))).
  reflexivity.
Defined.


Lemma list_consonants_break_the_lyrics :
  duration no_inherited note_with_list_consonants = Ok (VInt 1)
  ∧ Forall2 (λ f x, f note_with_list_consonants = Ok x)
      (_extraction_functions (converter_wrapping_at no_inherited 5))
      [VList [VStr "t"]; VStr "e"; WesternPitch "c" 4; DirectVolume 1]
  ∧ ∃ data,
      _convert_simple_event no_inherited (converter_wrapping_at no_inherited 5)
        note_with_list_consonants (VInt 0) = Ok data
      ∧ _make_lyrics_section_from_extracted_data_per_event
          (converter_wrapping_at no_inherited 5) data
        = Raise TypeError.
Proof.
  assert (Forall2 (λ f x, f note_with_list_consonants = Ok x)
            (_extraction_functions (converter_wrapping_at no_inherited 5))
            [VList [VStr "t"]; VStr "e"; WesternPitch "c" 4; DirectVolume 1])
    as Hall by (repeat constructor).
  split; [reflexivity |]. split; [exact Hall |].
  exact (lyrics_reject_list_consonants no_inherited
           (converter_wrapping_at no_inherited 5) note_with_list_consonants
           (VInt 0) (VInt 1) (VStr "e") (WesternPitch "c" 4) (DirectVolume 1)
           [VStr "t"] eq_refl Hall).
Defined.

Lemma index_error_of_a_rest_propagates :
  duration no_inherited rest_without_volume = Ok (VInt 1)
  ∧ Forall (succeeds_on rest_without_volume)
      [default_simple_event_to_consonants no_inherited;
       default_simple_event_to_vowel no_inherited]
  ∧ default_simple_event_to_pitch no_inherited rest_without_volume = Raise IndexError
  ∧ _convert_simple_event no_inherited (converter_wrapping_at no_inherited 5)
      rest_without_volume (VInt 0)
    = Raise IndexError.
Proof.
  assert (Forall (succeeds_on rest_without_volume)
            [default_simple_event_to_consonants no_inherited;
             default_simple_event_to_vowel no_inherited]) as Hbefore.
  { constructor; [by eexists |]. constructor; [by eexists | constructor]. }
  split; [reflexivity |]. split; [exact Hbefore |]. split; [reflexivity |].
  apply (convert_simple_event_propagates no_inherited
           (converter_wrapping_at no_inherited 5) rest_without_volume
           (VInt 0) (VInt 1)
           [default_simple_event_to_consonants no_inherited;
            default_simple_event_to_vowel no_inherited]
           [default_simple_event_to_volume no_inherited]
           (default_simple_event_to_pitch no_inherited) IndexError).
  - reflexivity.
  - reflexivity.
  - exact Hbefore.
  - reflexivity.
  - discriminate.
Defined.

Lemma sung_note_tuple_layout :
  duration no_inherited (sung_note 3) = Ok (VInt 3)
  ∧ _convert_simple_event no_inherited (converter_wrapping_at no_inherited 5)
      (sung_note 3) (VInt 0)
    = Ok [VTuple [VInt 3; VTuple [VStr "t"]; VStr "a"; WesternPitch "c" 4;
                  DirectVolume 1]].
Proof.
  split; [reflexivity |].
  apply (extracted_tuple_layout no_inherited "score"
           (default_simple_event_to_pitch no_inherited)
           (default_simple_event_to_volume no_inherited)
           (default_simple_event_to_vowel no_inherited)
           (default_simple_event_to_consonants no_inherited)
           (VInt 60) (VInt 0) VNone 5 (sung_note 3) (VInt 0) (VInt 3));
    reflexivity.
Defined.

Lemma rest_with_lyrics_raises :
  duration no_inherited rest_without_volume = Ok (VInt 1)
  ∧ SimpleEvent_getattr no_inherited rest_without_volume "pitch_or_pitches"
    = Ok (VList [])
  ∧ _convert_simple_event no_inherited (IsisScoreConverter_default no_inherited "score")
      rest_without_volume (VInt 0)
    = Raise IndexError.
Proof.
  split; [reflexivity |]. split; [reflexivity |].
  apply (rest_raises_index_error no_inherited "score" rest_without_volume
           (VInt 0) (VInt 1) (VTuple []) (VStr "a")); reflexivity.
Defined.

Lemma note_without_vowel_is_silent :
  duration no_inherited note_without_vowel = Ok (VInt 1)
  ∧ default_simple_event_to_vowel no_inherited note_without_vowel
    = Raise AttributeError
  ∧ ∃ data,
      _convert_simple_event no_inherited (converter_wrapping_at no_inherited 5)
        note_without_vowel (VInt 0) = Ok data
      ∧ _make_lyrics_section_from_extracted_data_per_event
          (converter_wrapping_at no_inherited 5) data
        = Ok ("[lyrics]" +:+ newline +:+ "xsampa: _").
Proof.
  split; [reflexivity |]. split; [reflexivity |].
  apply (missing_attribute_renders_silence no_inherited
           (converter_wrapping_at no_inherited 5) note_without_vowel
           (VInt 0) (VInt 1)
           [default_simple_event_to_consonants no_inherited]
           [default_simple_event_to_pitch no_inherited;
            default_simple_event_to_volume no_inherited]
           (default_simple_event_to_vowel no_inherited)).
  - reflexivity.
  - reflexivity.
  - constructor; [by eexists | constructor].
  - reflexivity.
  - discriminate.
Defined.


